(** * Quantum Hamming (Steane) code demo: circuit construction and syndrome decoding

    Shallow embedding of [app.py]: the circuit-building functions
    [steane_encode], [inject_error], [syndrome_measurement], the decode table
    [SYNDROME_TABLE], [apply_correction] and the execution block that runs under
    [if run:].  A [QuantumCircuit] is the ordered list of instructions the
    Python object accumulates; the functions that mutate [qc] in place are
    written in state-passing style and return the updated circuit. *)

From Stdlib Require Import ZArith NArith List String Ascii Bool Lia DecimalString.
Import ListNotations.
Open Scope string_scope.
Open Scope Z_scope.

(** ** Exceptions and results *)

(** The Python exceptions that the modelled code can raise: the circuit
    library's [CircuitError] (a bit index outside the register), the
    built-in [ValueError] ([max] of an empty iterable), and what the call
    into the simulator raises when it refuses to run ([QiskitError],
    [TypeError]). *)
Inductive exn : Type :=
| CircuitError
| ValueError
| QiskitError
| TypeError.

Inductive result (A : Type) : Type :=
| Ok (a : A)
| Raise (e : exn).
Arguments Ok {A} a.
Arguments Raise {A} e.

Definition bind {A B : Type} (r : result A) (k : A -> result B) : result B :=
  match r with
  | Ok a => k a
  | Raise e => Raise e
  end.

Notation "x <- r ;; k" := (bind r (fun x => k))
  (at level 61, r at next level, right associativity).

(** ** Circuits *)

Module Circuit.

(** One appended operation; bit arguments are stored resolved, as positions
    in the registers. *)
Inductive instr : Type :=
| h (q : nat)
| x (q : nat)
| y (q : nat)
| z (q : nat)
| cx (c t : nat)
| measure (q c : nat).

Record QuantumCircuit : Type := mkCircuit {
  num_qubits : nat;
  num_clbits : nat;
  data : list instr
}.

(** [QuantumCircuit(n, m)] *)
Definition new (n m : nat) : QuantumCircuit := mkCircuit n m [].

(** An integer bit specifier indexes the register as a Python list does:
    [0 .. size-1] directly, [-size .. -1] from the end, anything else is an
    [IndexError] that the library turns into [CircuitError]. *)
Definition resolve (size : nat) (i : Z) : result nat :=
  if (0 <=? i) && (i <? Z.of_nat size) then Ok (Z.to_nat i)
  else if (- Z.of_nat size <=? i) && (i <? 0) then Ok (Z.to_nat (Z.of_nat size + i))
  else Raise CircuitError.

Definition append (qc : QuantumCircuit) (op : instr) : QuantumCircuit :=
  mkCircuit (num_qubits qc) (num_clbits qc) (data qc ++ [op]).

(** A one-qubit gate method [qc.g(qubit)]. *)
Definition gate1 (g : nat -> instr) (qc : QuantumCircuit) (qubit : Z)
  : result QuantumCircuit :=
  q <- resolve (num_qubits qc) qubit ;;
  Ok (append qc (g q)).

Definition qc_h := gate1 h.
Definition qc_x := gate1 x.
Definition qc_y := gate1 y.
Definition qc_z := gate1 z.

(** [qc.cx(control, target)]; the library rejects a repeated qubit. *)
Definition qc_cx (qc : QuantumCircuit) (control target : Z) : result QuantumCircuit :=
  c <- resolve (num_qubits qc) control ;;
  t <- resolve (num_qubits qc) target ;;
  if Nat.eqb c t then Raise CircuitError else Ok (append qc (cx c t)).

(** [qc.measure(qubit, cbit)] *)
Definition qc_measure (qc : QuantumCircuit) (qubit cbit : Z) : result QuantumCircuit :=
  q <- resolve (num_qubits qc) qubit ;;
  c <- resolve (num_clbits qc) cbit ;;
  Ok (append qc (measure q c)).

End Circuit.
Import Circuit.

(** ** The quantum logic of [app.py] *)

(** [steane_encode()] *)
Definition steane_encode : result QuantumCircuit :=
  let qc := Circuit.new 10 3 in
  qc <- qc_h qc 0 ;;
  qc <- qc_cx qc 0 1 ;;
  qc <- qc_cx qc 0 2 ;;
  qc <- qc_cx qc 1 3 ;;
  qc <- qc_cx qc 2 3 ;;
  qc <- qc_cx qc 1 4 ;;
  qc <- qc_cx qc 2 5 ;;
  qc <- qc_cx qc 3 6 ;;
  Ok qc.

(** [inject_error(qc, qubit, error)]: the error is the string chosen in the
    sidebar; any string other than "X", "Z", "Y" falls through the chain. *)
Definition inject_error (qc : QuantumCircuit) (qubit : Z) (error : string)
  : result QuantumCircuit :=
  if (error =? "X")%string then qc_x qc qubit
  else if (error =? "Z")%string then qc_z qc qubit
  else if (error =? "Y")%string then qc_y qc qubit
  else Ok qc.

(** [syndrome_measurement(qc)] *)
Definition syndrome_measurement (qc : QuantumCircuit) : result QuantumCircuit :=
  qc <- qc_cx qc 0 7 ;; qc <- qc_cx qc 1 7 ;; qc <- qc_cx qc 3 7 ;;
  qc <- qc_cx qc 0 8 ;; qc <- qc_cx qc 2 8 ;; qc <- qc_cx qc 3 8 ;;
  qc <- qc_cx qc 1 9 ;; qc <- qc_cx qc 2 9 ;; qc <- qc_cx qc 3 9 ;;
  qc <- qc_measure qc 7 0 ;;
  qc <- qc_measure qc 8 1 ;;
  qc <- qc_measure qc 9 2 ;;
  Ok qc.

(** A Python dict with string keys, in insertion order. *)
Definition dict (V : Type) : Type := list (string * V).

Fixpoint dict_get {V : Type} (d : dict V) (k : string) : option V :=
  match d with
  | [] => None
  | (k', v) :: d' => if (k' =? k)%string then Some v else dict_get d' k
  end.

Definition keys {V : Type} (d : dict V) : list string := map fst d.
Definition values {V : Type} (d : dict V) : list V := map snd d.

Definition SYNDROME_TABLE : dict Z :=
  [ ("001", 0); ("010", 1); ("011", 2); ("100", 3);
    ("101", 4); ("110", 5); ("111", 6) ].

(** [apply_correction(qc, syndrome, error_type)]: returns the updated circuit
    together with the function's return value ([None] or the qubit). *)
Definition apply_correction (qc : QuantumCircuit) (syndrome error_type : string)
  : result (QuantumCircuit * option Z) :=
  match dict_get SYNDROME_TABLE syndrome with
  | Some q =>
      qc <- (if (error_type =? "X")%string then qc_x qc q
             else if (error_type =? "Z")%string then qc_z qc q
             else if (error_type =? "Y")%string then qc_y qc q
             else Ok qc) ;;
      Ok (qc, Some q)
  | None => Ok (qc, None)
  end.

(** ** Ideal simulation of a circuit

    The simulator is an external collaborator of [app.py].  Its noiseless
    behaviour on the gate set used here is modelled exactly: every amplitude
    reachable from the all-zero state with [h], [x], [y], [z], [cx] is a
    Gaussian integer up to one common factor (a power of [1/sqrt 2]), which
    cancels in every probability. *)

Module Sim.

Record gauss : Type := mkG { re : Z; im : Z }.

Definition gzero : gauss := mkG 0 0.
Definition gone : gauss := mkG 1 0.
Definition gadd (a b : gauss) : gauss := mkG (re a + re b) (im a + im b).
Definition gsub (a b : gauss) : gauss := mkG (re a - re b) (im a - im b).
Definition gneg (a : gauss) : gauss := mkG (- re a) (- im a).
(** multiplication by the imaginary unit *)
Definition gmul_i (a : gauss) : gauss := mkG (- im a) (re a).
(** squared modulus *)
Definition gnorm2 (a : gauss) : Z := re a * re a + im a * im a.

(** A state vector gives the amplitude of every basis state; qubit [q] is
    bit [q] of the basis-state index. *)
Definition state : Type := N -> gauss.

Definition ket0 : state := fun i => if N.eqb i 0 then gone else gzero.

Definition flip (q : nat) (i : N) : N := N.lxor i (N.shiftl 1 (N.of_nat q)).
Definition bit (q : nat) (i : N) : bool := N.testbit i (N.of_nat q).

(** Hadamard, without its factor [1/sqrt 2]. *)
Definition apply_h (q : nat) (psi : state) : state :=
  fun i =>
    let i0 := N.clearbit i (N.of_nat q) in
    let i1 := N.setbit i (N.of_nat q) in
    if bit q i then gsub (psi i0) (psi i1) else gadd (psi i0) (psi i1).

Definition apply_x (q : nat) (psi : state) : state :=
  fun i => psi (flip q i).

Definition apply_z (q : nat) (psi : state) : state :=
  fun i => if bit q i then gneg (psi i) else psi i.

(** [Y|0> = i|1>], [Y|1> = -i|0>] *)
Definition apply_y (q : nat) (psi : state) : state :=
  fun i => if bit q i then gmul_i (psi (flip q i))
           else gneg (gmul_i (psi (flip q i))).

Definition apply_cx (c t : nat) (psi : state) : state :=
  fun i => if bit c i then psi (flip t i) else psi i.

(** Projection on the subspace where qubit [q] reads [b] (not renormalised:
    the squared norm of the projected vector carries the probability). *)
Definition project (q : nat) (b : bool) (psi : state) : state :=
  fun i => if Bool.eqb (bit q i) b then psi i else gzero.

Fixpoint sum_below (k : nat) (f : N -> Z) : Z :=
  match k with
  | O => 0
  | S k' => sum_below k' f + f (N.of_nat k')
  end.

(** Squared norm of a state of [n] qubits. *)
Definition norm2 (n : nat) (psi : state) : Z :=
  sum_below (2 ^ n) (fun i => gnorm2 (psi i)).

Fixpoint set_nth {A : Type} (l : list A) (k : nat) (a : A) : list A :=
  match l, k with
  | [], _ => []
  | _ :: l', O => a :: l'
  | b :: l', S k' => b :: set_nth l' k' a
  end.

(** One run of the circuit branches at every measurement: a branch holds the
    unnormalised state and the classical register written so far. *)
Record branch : Type := mkBranch { psi : state; creg : list bool }.

Definition on_state (f : state -> state) (br : branch) : branch :=
  mkBranch (f (psi br)) (creg br).

Definition measure_branch (q c : nat) (br : branch) : list branch :=
  [ mkBranch (project q false (psi br)) (set_nth (creg br) c false);
    mkBranch (project q true (psi br)) (set_nth (creg br) c true) ].

Definition step (op : instr) (brs : list branch) : list branch :=
  match op with
  | h q => map (on_state (apply_h q)) brs
  | x q => map (on_state (apply_x q)) brs
  | y q => map (on_state (apply_y q)) brs
  | z q => map (on_state (apply_z q)) brs
  | cx c t => map (on_state (apply_cx c t)) brs
  | measure q c => flat_map (measure_branch q c) brs
  end.

Definition branches (qc : QuantumCircuit) : list branch :=
  fold_left (fun brs op => step op brs) (data qc)
            [ mkBranch ket0 (repeat false (num_clbits qc)) ].

(** The key under which a classical register is counted: one character per
    classical bit, bit 0 rightmost. *)
Fixpoint bitstring_rev (bits : list bool) (acc : string) : string :=
  match bits with
  | [] => acc
  | b :: bits' => bitstring_rev bits' (String (if b then "1"%char else "0"%char) acc)
  end.

Definition bitstring (bits : list bool) : string := bitstring_rev bits "".

(** Every branch with its key and its unnormalised weight. *)
Definition outcomes (qc : QuantumCircuit) : list (string * Z) :=
  map (fun br => (bitstring (creg br), norm2 (num_qubits qc) (psi br))) (branches qc).

Fixpoint weight_in (l : list (string * Z)) (k : string) : Z :=
  match l with
  | [] => 0
  | (k', w) :: l' => (if (k' =? k)%string then w else 0) + weight_in l' k
  end.

Definition sum_weights (l : list (string * Z)) : Z :=
  fold_right Z.add 0 (map snd l).

(** The probability of reading [k] is [weight qc k / total qc]. *)
Definition weight (qc : QuantumCircuit) (k : string) : Z := weight_in (outcomes qc) k.
Definition total (qc : QuantumCircuit) : Z := sum_weights (outcomes qc).

(** The keys that have nonzero probability. *)
Definition support (qc : QuantumCircuit) : list string :=
  nodup string_dec (map fst (filter (fun kw => 0 <? snd kw) (outcomes qc))).

(** [k] is read with probability 1. *)
Definition certain (qc : QuantumCircuit) (k : string) : Prop :=
  0 < total qc /\ weight qc k = total qc.

(** What a noiseless backend may answer to [run(qc, shots).result().get_counts()]:
    a dict of positive counts that add up to [shots], whose keys are distinct
    and all have nonzero probability. *)
Definition sampled_from (qc : QuantumCircuit) (shots : Z) (counts : dict Z) : Prop :=
  NoDup (keys counts) /\
  (forall k c, In (k, c) counts -> 0 < c /\ 0 < weight qc k) /\
  fold_right Z.add 0 (values counts) = shots.

End Sim.
Import Sim.

(** ** The execution block ([if run:]) *)

(** [max(counts, key=counts.get)]: the first key, in the dict's iteration
    order, whose count is not exceeded by any other; [ValueError] on an empty
    dict. *)
Definition count_of (counts : dict Z) (k : string) : Z :=
  match dict_get counts k with
  | Some c => c
  | None => 0
  end.

Fixpoint max_from (key : string -> Z) (best : string) (rest : list string) : string :=
  match rest with
  | [] => best
  | k :: rest' => if key best <? key k then max_from key k rest'
                  else max_from key best rest'
  end.

Definition py_max (counts : dict Z) : result string :=
  match keys counts with
  | [] => Raise ValueError
  | k :: ks => Ok (max_from (count_of counts) k ks)
  end.

Definition string_of_Z (n : Z) : string := NilZero.string_of_int (Z.to_int n).

(** What a run leaves behind for the page: the selected syndrome, the value
    of [corrected], the text of the final [st.success] and the circuit that
    is drawn. *)
Record report : Type := mkReport {
  syndrome : string;
  corrected : option Z;
  message : string;
  circuit : QuantumCircuit
}.

(** The circuit handed to the backend: encode, inject unless the error type
    is "None", then append the syndrome extraction. *)
Definition prepare (error_type : string) (error_qubit : Z) : result QuantumCircuit :=
  qc <- steane_encode ;;
  qc <- (if negb (error_type =? "None")%string
         then inject_error qc error_qubit error_type
         else Ok qc) ;;
  syndrome_measurement qc.

Section RunBlock.

(** [backend.run(qc, shots=shots).result().get_counts()]: the simulator
    either answers with the counts or raises. *)
Variable backend : QuantumCircuit -> Z -> result (dict Z).

Definition execute (error_type : string) (error_qubit shots : Z) : result report :=
  qc <- prepare error_type error_qubit ;;
  counts <- backend qc shots ;;
  syndrome <- py_max counts ;;
  r <- (if negb (error_type =? "None")%string
        then apply_correction qc syndrome error_type
        else Ok (qc, None)) ;;
  let (qc, corrected) := r in
  let message :=
    match corrected with
    | Some q => "Error corrected on qubit " ++ string_of_Z q
    | None => "No error detected"
    end in
  Ok (mkReport syndrome corrected message qc).

End RunBlock.

(** A simulator that answers every call. *)
Definition answering (counts_of : QuantumCircuit -> Z -> dict Z)
  : QuantumCircuit -> Z -> result (dict Z) :=
  fun qc shots => Ok (counts_of qc shots).

(** The block when the simulator answers: [backend qc shots] is then the
    dict that [get_counts()] returned. *)
Definition run_block (backend : QuantumCircuit -> Z -> dict Z)
           (error_type : string) (error_qubit shots : Z) : result report :=
  execute (answering backend) error_type error_qubit shots.

(** The decode step on its own: the table lookup inside [apply_correction]. *)
Definition decode (syndrome : string) : option Z := dict_get SYNDROME_TABLE syndrome.

(** A string of exactly three characters, each '0' or '1'. *)
Definition is_bit (c : ascii) : bool := (c =? "0")%char || (c =? "1")%char.

Definition is_syndrome (s : string) : bool :=
  match s with
  | String a (String b (String c EmptyString)) => is_bit a && is_bit b && is_bit c
  | _ => false
  end.

(** Executable test of [certain]. *)
Definition certainb (qc : QuantumCircuit) (k : string) : bool :=
  let o := outcomes qc in
  let t := sum_weights o in
  (0 <? t) && (weight_in o k =? t).

Definition nonneg (l : list (string * Z)) : Prop :=
  Forall (fun kw => 0 <= snd kw) l.

(** Reading a list of instructions: the controls of the [cx] gates aimed at
    a target, and the classical bits a qubit is measured into. *)
Definition controls_into (t : nat) (ops : list instr) : list nat :=
  flat_map (fun op => match op with
                      | cx c t' => if Nat.eqb t' t then [c] else []
                      | _ => []
                      end) ops.

Definition measured_into (q : nat) (ops : list instr) : list nat :=
  flat_map (fun op => match op with
                      | measure q' c => if Nat.eqb q' q then [c] else []
                      | _ => []
                      end) ops.

Definition is_cx (op : instr) : bool :=
  match op with cx _ _ => true | _ => false end.

Definition is_measure (op : instr) : bool :=
  match op with measure _ _ => true | _ => false end.

(** The instructions [syndrome_measurement] appends, in order. *)
Definition extraction_ops : list instr :=
  [ cx 0 7; cx 1 7; cx 3 7;
    cx 0 8; cx 2 8; cx 3 8;
    cx 1 9; cx 2 9; cx 3 9;
    measure 7 0; measure 8 1; measure 9 2 ].

(** The instructions of the encoding circuit, in order. *)
Definition encoding_ops : list instr :=
  [ h 0; cx 0 1; cx 0 2; cx 1 3; cx 2 3; cx 1 4; cx 2 5; cx 3 6 ].

(** The circuit handed to the backend when the injection step appended
    [injected] between the encoding and the syndrome extraction. *)
Definition measured_circuit (injected : list instr) : QuantumCircuit :=
  mkCircuit 10 3 (encoding_ops ++ injected ++ extraction_ops).

(** A backend stub that answers the same dict whatever it is asked. *)
Definition replay (counts : dict Z) : QuantumCircuit -> Z -> dict Z :=
  fun _ _ => counts.

(** A backend stub that reads one key on every shot. *)
Definition always (s : string) : QuantumCircuit -> Z -> dict Z :=
  fun _ shots => [(s, shots)].

(** A simulator stub that refuses a shot count of zero or less and answers
    like [counts_of] otherwise. *)
Definition refusing (counts_of : QuantumCircuit -> Z -> dict Z)
  : QuantumCircuit -> Z -> result (dict Z) :=
  fun qc shots =>
    if shots <? 0 then Raise TypeError
    else if shots =? 0 then Raise QiskitError
    else Ok (counts_of qc shots).


(** The gate that an error type selects in the [if]/[elif] chain shared by
    [inject_error] and [apply_correction]; [None] when the chain falls
    through. *)
Definition pauli (error : string) : option (nat -> instr) :=
  if (error =? "X")%string then Some x
  else if (error =? "Z")%string then Some z
  else if (error =? "Y")%string then Some y
  else None.

(** The options of the two sidebar select boxes. *)
Definition error_types : list string := ["None"; "X"; "Z"; "Y"].
Definition error_qubits : list Z := [0; 1; 2; 3; 4; 5; 6].

(** [qc'] is [qc] with instructions added at the end and the same registers. *)
Definition extends (qc qc' : QuantumCircuit) : Prop :=
  num_qubits qc' = num_qubits qc /\
  num_clbits qc' = num_clbits qc /\
  exists added, data qc' = (data qc ++ added)%list.

(** The number a string of binary digits denotes, first digit most
    significant. *)
Fixpoint binary_value_from (acc : Z) (s : string) : Z :=
  match s with
  | EmptyString => acc
  | String c s' =>
      binary_value_from (2 * acc + (if (c =? "1")%char then 1 else 0)) s'
  end.

Definition binary_value (s : string) : Z := binary_value_from 0 s.

(** Does qubit [q] control a [cx] into ancilla [a] in the syndrome
    extraction? *)
Definition checked_by (a q : nat) : bool :=
  existsb (Nat.eqb q) (controls_into a extraction_ops).

(** The key in which the ancillas 7, 8, 9 (classical bits 0, 1, 2) read 1
    exactly when their parity check contains [q]. *)
Definition parity_key (q : nat) : string :=
  bitstring [checked_by 7 q; checked_by 8 q; checked_by 9 q].

(** The basis-state indices below [2 ^ n], for checking a state of [n]
    qubits entry by entry. *)
Definition basis (n : nat) : list N := map N.of_nat (seq 0 (2 ^ n)).

(** Equality test on amplitudes. *)
Definition geqb (a b : gauss) : bool := (re a =? re b) && (im a =? im b).

(** * Properties *)

(** ** The decode table *)

Lemma table_lookup_cases (s : string) (q : Z) :
  dict_get SYNDROME_TABLE s = Some q ->
  In (s, q) SYNDROME_TABLE.
Proof.
  unfold SYNDROME_TABLE.
  generalize dependent s.
  assert (G : forall (d : dict Z) s, dict_get d s = Some q -> In (s, q) d).
  { induction d as [|[k v] d IH]; simpl; intros s H; [discriminate|].
    destruct (String.eqb_spec k s) as [->|_].
    - injection H as ->. now left.
    - right. now apply IH. }
  intros s. apply G.
Qed.

Lemma table_lookup_range (s : string) (q : Z) :
  dict_get SYNDROME_TABLE s = Some q -> 0 <= q <= 6.
Proof.
  intros H. apply table_lookup_cases in H. simpl in H.
  repeat (destruct H as [H|H]; [injection H as _ <-; lia|]).
  contradiction.
Qed.

Lemma table_lookup_in_keys (s : string) :
  dict_get SYNDROME_TABLE s <> None <-> In s (keys SYNDROME_TABLE).
Proof.
  assert (G : forall (d : dict Z), dict_get d s <> None <-> In s (keys d)).
  { induction d as [|[k v] d IH]; simpl; [tauto|].
    destruct (String.eqb_spec k s) as [->|N].
    - split; [now left | discriminate].
    - rewrite IH. split; [now right | now intros [E|I]]. }
  apply G.
Qed.

Lemma is_bit_cases (c : ascii) :
  is_bit c = true -> c = "0"%char \/ c = "1"%char.
Proof.
  unfold is_bit. intros H. apply orb_true_iff in H.
  destruct H as [H|H]; apply Ascii.eqb_eq in H; auto.
Qed.

Lemma is_syndrome_cases (s : string) :
  is_syndrome s = true ->
  In s ["000"; "001"; "010"; "011"; "100"; "101"; "110"; "111"].
Proof.
  destruct s as [|a [|b [|c [|d s]]]]; simpl; try discriminate.
  intros H. apply andb_true_iff in H as [H Hc].
  apply andb_true_iff in H as [Ha Hb].
  apply is_bit_cases in Ha, Hb, Hc.
  destruct Ha as [-> | ->], Hb as [-> | ->], Hc as [-> | ->]; tauto.
Qed.

Lemma keys_are_nonzero_syndromes (s : string) :
  In s (keys SYNDROME_TABLE) <-> is_syndrome s = true /\ s <> "000".
Proof.
  split.
  - simpl. intros H.
    repeat (destruct H as [<-|H]; [split; [reflexivity | discriminate]|]).
    contradiction.
  - intros [H N]. apply is_syndrome_cases in H. simpl in H. simpl.
    destruct H as [<-|H]; [congruence | tauto].
Qed.

Lemma values_are_physical_qubits (q : Z) :
  In q (values SYNDROME_TABLE) <-> 0 <= q <= 6.
Proof.
  simpl. split.
  - intros H. repeat (destruct H as [<-|H]; [lia|]). contradiction.
  - intros H.
    assert (C : 0 = q \/ 1 = q \/ 2 = q \/ 3 = q \/ 4 = q \/ 5 = q \/ 6 = q) by lia.
    tauto.
Qed.

Lemma resolve_in_range (size : nat) (i : Z) :
  0 <= i < Z.of_nat size -> resolve size i = Ok (Z.to_nat i).
Proof.
  intros H. unfold resolve.
  replace (0 <=? i) with true by (symmetry; apply Z.leb_le; lia).
  replace (i <? Z.of_nat size) with true by (symmetry; apply Z.ltb_lt; lia).
  reflexivity.
Qed.

Lemma resolve_beyond (size : nat) (i : Z) :
  Z.of_nat size <= i -> resolve size i = Raise CircuitError.
Proof.
  intros H. unfold resolve.
  replace (i <? Z.of_nat size) with false by (symmetry; apply Z.ltb_ge; lia).
  replace (i <? 0) with false by (symmetry; apply Z.ltb_ge; lia).
  now rewrite !andb_false_r.
Qed.

Lemma resolve_nonneg_ok (size : nat) (i : Z) (n : nat) :
  0 <= i -> resolve size i = Ok n -> n = Z.to_nat i /\ (n < size)%nat.
Proof.
  intros H. unfold resolve.
  destruct (0 <=? i) eqn:E0; [|apply Z.leb_gt in E0; lia].
  destruct (i <? Z.of_nat size) eqn:E1; simpl.
  - intros [= <-]. apply Z.ltb_lt in E1. split; [reflexivity | lia].
  - replace (i <? 0) with false by (symmetry; apply Z.ltb_ge; lia).
    now rewrite andb_false_r.
Qed.

Lemma gate1_ok (g : nat -> instr) (qc qc' : QuantumCircuit) (q : Z) :
  0 <= q -> gate1 g qc q = Ok qc' -> qc' = append qc (g (Z.to_nat q)).
Proof.
  intros Hq. unfold gate1.
  destruct (resolve (num_qubits qc) q) as [n|e] eqn:E; simpl; [|discriminate].
  apply resolve_nonneg_ok in E as [-> _]; [|exact Hq].
  now intros [= <-].
Qed.

(** C3. [SYNDROME_TABLE] is a bijection between the seven nonzero three-bit
    strings and the qubit indices 0..6: its keys are exactly those strings,
    its values are exactly 0..6, and neither keys nor values repeat.  Hence
    whatever [apply_correction] returns as a qubit lies in 0..6, and the only
    instruction it can add to the circuit is one [x], [y] or [z] on a qubit
    of index at most 6, never on an ancilla 7..9. *)
Theorem C3_table_bijection :
  (forall s, In s (keys SYNDROME_TABLE) <-> is_syndrome s = true /\ s <> "000") /\
  (forall q, In q (values SYNDROME_TABLE) <-> 0 <= q <= 6) /\
  NoDup (keys SYNDROME_TABLE) /\
  NoDup (values SYNDROME_TABLE) /\
  List.length SYNDROME_TABLE = 7%nat /\
  (forall qc s k qc' r,
      apply_correction qc s k = Ok (qc', r) ->
      (r = None /\ qc' = qc) \/
      (exists q, r = Some q /\ 0 <= q <= 6 /\
                 (qc' = qc \/
                  exists g, In g [x; y; z] /\ (Z.to_nat q <= 6)%nat /\
                            qc' = append qc (g (Z.to_nat q))))).
Proof.
  split; [exact keys_are_nonzero_syndromes|].
  split; [exact values_are_physical_qubits|].
  split; [|split; [|split; [reflexivity|]]].
  - simpl. repeat (constructor; [simpl; intuition discriminate|]). constructor.
  - simpl. repeat (constructor; [simpl; intuition discriminate|]). constructor.
  - intros qc s k qc' r. unfold apply_correction.
    destruct (dict_get SYNDROME_TABLE s) as [q|] eqn:E.
    + pose proof (table_lookup_range _ _ E) as R.
      intros H. right. exists q.
      assert (T : (Z.to_nat q <= 6)%nat) by lia.
      destruct (k =? "X")%string;
        [|destruct (k =? "Z")%string; [|destruct (k =? "Y")%string]].
      * destruct (qc_x qc q) as [c|e] eqn:G; simpl in H; [|discriminate].
        injection H as <- <-. apply gate1_ok in G; [|lia].
        repeat split; try lia. right. exists x. simpl. auto.
      * destruct (qc_z qc q) as [c|e] eqn:G; simpl in H; [|discriminate].
        injection H as <- <-. apply gate1_ok in G; [|lia].
        repeat split; try lia. right. exists z. simpl. auto.
      * destruct (qc_y qc q) as [c|e] eqn:G; simpl in H; [|discriminate].
        injection H as <- <-. apply gate1_ok in G; [|lia].
        repeat split; try lia. right. exists y. simpl. auto.
      * simpl in H. injection H as <- <-. repeat split; try lia. now left.
    + intros [= <- <-]. now left.
Qed.

(** ** Circuit construction *)

Lemma steane_encode_eq : steane_encode = Ok (mkCircuit 10 3 encoding_ops).
Proof. reflexivity. Qed.

Lemma syndrome_measurement_eq (ops : list instr) :
  syndrome_measurement (mkCircuit 10 3 ops)
  = Ok (mkCircuit 10 3 (ops ++ extraction_ops)).
Proof.
  cbv [syndrome_measurement qc_cx qc_measure bind resolve append
       num_qubits num_clbits data]. simpl.
  repeat rewrite <- app_assoc. reflexivity.
Qed.

(** C6. [steane_encode] returns a circuit of 10 qubits and 3 classical bits
    whose instructions are a Hadamard on qubit 0 followed by exactly the
    seven controlled-NOTs 0->1, 0->2, 1->3, 2->3, 1->4, 2->5, 3->6, in this
    order, and nothing else. *)
Theorem C6_steane_encode_circuit :
  steane_encode = Ok (mkCircuit 10 3 encoding_ops) /\
  encoding_ops = h 0 :: filter is_cx encoding_ops /\
  filter is_cx encoding_ops =
    [cx 0 1; cx 0 2; cx 1 3; cx 2 3; cx 1 4; cx 2 5; cx 3 6] /\
  List.length (filter is_cx encoding_ops) = 7%nat.
Proof.
  split; [exact steane_encode_eq | repeat split; reflexivity].
Qed.

(** C5. On a circuit of 10 qubits and 3 classical bits, [syndrome_measurement]
    appends exactly nine controlled-NOTs followed by three measurements:
    ancilla 7 is the target of the controls 0, 1, 3 and is measured into bit 0,
    ancilla 8 of the controls 0, 2, 3 and into bit 1, ancilla 9 of the controls
    1, 2, 3 and into bit 2. *)
Theorem C5_syndrome_measurement_appends (qc : QuantumCircuit) :
  num_qubits qc = 10%nat ->
  num_clbits qc = 3%nat ->
  syndrome_measurement qc = Ok (mkCircuit 10 3 (data qc ++ extraction_ops)) /\
  extraction_ops = (filter is_cx extraction_ops ++ filter is_measure extraction_ops)%list /\
  List.length (filter is_cx extraction_ops) = 9%nat /\
  List.length (filter is_measure extraction_ops) = 3%nat /\
  controls_into 7 extraction_ops = [0; 1; 3]%nat /\
  measured_into 7 extraction_ops = [0]%nat /\
  controls_into 8 extraction_ops = [0; 2; 3]%nat /\
  measured_into 8 extraction_ops = [1]%nat /\
  controls_into 9 extraction_ops = [1; 2; 3]%nat /\
  measured_into 9 extraction_ops = [2]%nat.
Proof.
  intros Hq Hc. split; [|repeat split; reflexivity].
  destruct qc as [n m ops]. simpl in Hq, Hc. subst n m.
  apply syndrome_measurement_eq.
Qed.

Lemma C5_syndrome_measurement_appends_witness :
  syndrome_measurement (mkCircuit 10 3 encoding_ops)
  = Ok (mkCircuit 10 3 (encoding_ops ++ extraction_ops)).
Proof.
  exact (proj1 (C5_syndrome_measurement_appends (mkCircuit 10 3 encoding_ops)
                 eq_refl eq_refl)).
Defined.

(** ** Decoding and correction *)

Lemma table_lookup_none (s : string) :
  s = "000" \/ is_syndrome s = false -> dict_get SYNDROME_TABLE s = None.
Proof.
  intros H.
  destruct (dict_get SYNDROME_TABLE s) as [q|] eqn:E; [|reflexivity].
  assert (I : In s (keys SYNDROME_TABLE))
    by (apply table_lookup_in_keys; congruence).
  apply keys_are_nonzero_syndromes in I as [I N].
  destruct H as [H|H]; congruence.
Qed.

(** C10. With a syndrome that is a key of [SYNDROME_TABLE] and an error type
    other than "X", "Z", "Y", [apply_correction] returns the table's qubit and
    leaves the circuit as it was; with a syndrome that is not a key it returns
    [None] and leaves the circuit as it was.  A returned qubit therefore does
    not mean that a gate was appended. *)
Theorem C10_apply_correction_frame :
  (forall qc s k q,
      dict_get SYNDROME_TABLE s = Some q ->
      k <> "X" -> k <> "Z" -> k <> "Y" ->
      apply_correction qc s k = Ok (qc, Some q)) /\
  (forall qc s k,
      ~ In s (keys SYNDROME_TABLE) ->
      apply_correction qc s k = Ok (qc, None)).
Proof.
  split.
  - intros qc s k q E NX NZ NY. unfold apply_correction. rewrite E.
    apply String.eqb_neq in NX, NZ, NY. now rewrite NX, NZ, NY.
  - intros qc s k N. unfold apply_correction.
    destruct (dict_get SYNDROME_TABLE s) as [q|] eqn:E; [|reflexivity].
    exfalso. apply N, table_lookup_in_keys. congruence.
Qed.

Lemma C10_apply_correction_frame_witness :
  apply_correction (mkCircuit 10 3 encoding_ops) "111" "None"
    = Ok (mkCircuit 10 3 encoding_ops, Some 6) /\
  apply_correction (mkCircuit 10 3 encoding_ops) "000" "X"
    = Ok (mkCircuit 10 3 encoding_ops, None).
Proof.
  split.
  - apply (proj1 C10_apply_correction_frame _ "111" "None" 6);
      [reflexivity | discriminate | discriminate | discriminate].
  - apply (proj2 C10_apply_correction_frame _ "000" "X").
    simpl. intuition discriminate.
Defined.

(** C7, as stated, fails: for a string that is not three characters of
    '0'/'1' the lookup does not fail, it answers [None] like for "000". *)
Lemma C7_counterexample :
  is_syndrome "abc" = false /\
  apply_correction (mkCircuit 10 3 encoding_ops) "abc" "X"
    = Ok (mkCircuit 10 3 encoding_ops, None).
Proof.
  split; reflexivity.
Qed.

(** C7, amended. Decoding returns [None] for "000" and, without failing,
    for every string that is not exactly three characters of '0'/'1'; the
    circuit is left as it was. *)
Theorem C7_decode_none (qc : QuantumCircuit) (s k : string) :
  s = "000" \/ is_syndrome s = false ->
  dict_get SYNDROME_TABLE s = None /\
  apply_correction qc s k = Ok (qc, None).
Proof.
  intros H. apply table_lookup_none in H. split; [exact H|].
  unfold apply_correction. now rewrite H.
Qed.

Lemma C7_decode_none_witness :
  dict_get SYNDROME_TABLE "0101" = None /\
  apply_correction (mkCircuit 10 3 encoding_ops) "0101" "Z"
    = Ok (mkCircuit 10 3 encoding_ops, None).
Proof.
  apply (C7_decode_none (mkCircuit 10 3 encoding_ops) "0101" "Z").
  right. reflexivity.
Defined.

(** ** Error injection *)







(** ** Ideal simulation: weights and counts *)

Lemma gnorm2_nonneg (a : gauss) : 0 <= gnorm2 a.
Proof. unfold gnorm2. nia. Qed.

Lemma sum_below_nonneg (k : nat) (f : N -> Z) :
  (forall i, 0 <= f i) -> 0 <= sum_below k f.
Proof.
  intros Hf. induction k as [|k IH]; simpl; [lia|].
  specialize (Hf (N.of_nat k)). lia.
Qed.

Lemma outcomes_nonneg (qc : QuantumCircuit) : nonneg (outcomes qc).
Proof.
  unfold nonneg, outcomes. apply Forall_forall. intros [k w] H.
  apply in_map_iff in H as [br [[= <- <-] _]]. simpl.
  apply sum_below_nonneg. intros i. apply gnorm2_nonneg.
Qed.

Lemma weight_in_bounds (l : list (string * Z)) (k : string) :
  nonneg l -> 0 <= weight_in l k <= sum_weights l.
Proof.
  unfold sum_weights.
  induction 1 as [|[k' w] l Hw Hl IH]; simpl in *; [lia|].
  destruct (k' =? k)%string; lia.
Qed.

Lemma weight_in_concentrated (l : list (string * Z)) (s k : string) :
  nonneg l -> weight_in l s = sum_weights l -> k <> s -> weight_in l k = 0.
Proof.
  intros Hl. revert k. unfold sum_weights.
  induction Hl as [|[k' w] l Hw Hl IH]; simpl in *; intros k E N; [reflexivity|].
  pose proof (weight_in_bounds l s Hl) as B. unfold sum_weights in B.
  destruct (String.eqb_spec k' s) as [->|D].
  - apply String.eqb_neq in N. rewrite String.eqb_sym in N. rewrite N.
    rewrite IH; [reflexivity | lia | now apply String.eqb_neq;
                                      rewrite String.eqb_sym].
  - assert (w = 0) by lia. subst w.
    rewrite IH; [destruct (k' =? k)%string; reflexivity | lia | exact N].
Qed.

Lemma weight_pos_key (l : list (string * Z)) (k : string) :
  0 < weight_in l k -> In k (map fst l).
Proof.
  induction l as [|[k' w] l IH]; simpl; [lia|].
  destruct (String.eqb_spec k' k) as [->|D]; [now left|].
  intros H. right. apply IH. lia.
Qed.

Lemma certainb_sound (qc : QuantumCircuit) (s : string) :
  certainb qc s = true -> certain qc s.
Proof.
  unfold certainb, certain, weight, total. cbv zeta.
  intros H. apply andb_true_iff in H as [H1 H2].
  apply Z.ltb_lt in H1. apply Z.eqb_eq in H2. now split.
Qed.

Lemma certain_only (qc : QuantumCircuit) (s k : string) :
  certain qc s -> 0 < weight qc k -> k = s.
Proof.
  intros [_ E] H.
  destruct (string_dec k s) as [D|D]; [exact D|].
  unfold weight, total in *.
  rewrite (weight_in_concentrated _ s k (outcomes_nonneg qc) E D) in H. lia.
Qed.

(** When one outcome is certain, the only answer a noiseless backend can
    give to a positive number of shots is that outcome, counted [shots] times. *)
Lemma sampled_certain (qc : QuantumCircuit) (s : string) (shots : Z) (counts : dict Z) :
  certain qc s -> 0 < shots -> sampled_from qc shots counts ->
  counts = [(s, shots)].
Proof.
  intros C Hs (ND & P & S).
  destruct counts as [|[k c] rest]; simpl in S; [lia|].
  assert (k = s) by (apply (certain_only qc s k C), (P k c); now left).
  subst k.
  destruct rest as [|[k' c'] rest].
  - simpl in S. f_equal. f_equal. lia.
  - exfalso.
    assert (k' = s) by (apply (certain_only qc s k' C), (P k' c'); right; now left).
    subst k'. simpl in ND. inversion ND as [|? ? NI _]. apply NI. now left.
Qed.


(** ** The execution block *)

Lemma inject_error_shape (qc qc' : QuantumCircuit) (q : Z) (k : string) :
  inject_error qc q k = Ok qc' ->
  num_qubits qc' = num_qubits qc /\ num_clbits qc' = num_clbits qc.
Proof.
  unfold inject_error, qc_x, qc_y, qc_z, gate1.
  destruct (resolve (num_qubits qc) q) as [n|e]; simpl;
    repeat (match goal with |- context [if ?b then _ else _] => destruct b end);
    intros [= <-]; auto.
Qed.

Lemma prepare_shape (k : string) (q : Z) (qc : QuantumCircuit) :
  prepare k q = Ok qc -> num_qubits qc = 10%nat /\ num_clbits qc = 3%nat.
Proof.
  unfold prepare. rewrite steane_encode_eq. simpl.
  destruct (if negb (k =? "None")%string
            then inject_error (mkCircuit 10 3 encoding_ops) q k
            else Ok (mkCircuit 10 3 encoding_ops)) as [c|e] eqn:E; [|discriminate].
  assert (S : num_qubits c = 10%nat /\ num_clbits c = 3%nat).
  { destruct (negb (k =? "None")%string).
    - now apply inject_error_shape in E.
    - injection E as <-. auto. }
  destruct c as [n m ops]. simpl in S. destruct S as [-> ->]. simpl.
  rewrite syndrome_measurement_eq. intros [= <-]. auto.
Qed.

(** The rest of the block once the backend has answered a single key. *)
Lemma run_block_single (backend : QuantumCircuit -> Z -> dict Z)
      (k : string) (q shots : Z) (qc : QuantumCircuit) (s : string) (c : Z) :
  prepare k q = Ok qc ->
  backend qc shots = [(s, c)] ->
  run_block backend k q shots =
    (r <- (if negb (k =? "None")%string
           then apply_correction qc s k
           else Ok (qc, None)) ;;
     let (qc', corrected) := r in
     Ok (mkReport s corrected
                  match corrected with
                  | Some n => "Error corrected on qubit " ++ string_of_Z n
                  | None => "No error detected"
                  end qc')).
Proof.
  intros P B. unfold run_block, execute, answering. rewrite P. simpl. rewrite B. reflexivity.
Qed.

Lemma apply_correction_ok (qc : QuantumCircuit) (s k : string) :
  num_qubits qc = 10%nat ->
  exists qc', apply_correction qc s k = Ok (qc', dict_get SYNDROME_TABLE s).
Proof.
  intros Hn. unfold apply_correction.
  destruct (dict_get SYNDROME_TABLE s) as [n|] eqn:E; [|now exists qc].
  apply table_lookup_range in E.
  assert (R : resolve (num_qubits qc) n = Ok (Z.to_nat n))
    by (apply resolve_in_range; rewrite Hn; lia).
  unfold qc_x, qc_y, qc_z, gate1. rewrite R. simpl.
  repeat (match goal with |- context [if ?b then _ else _] => destruct b end);
    simpl; eauto.
Qed.

Lemma set_nth_length {A : Type} (l : list A) (k : nat) (a : A) :
  List.length (set_nth l k a) = List.length l.
Proof.
  revert k. induction l as [|b l IH]; intros [|k]; simpl; auto.
Qed.

Lemma step_creg_length (m : nat) (op : instr) (brs : list branch) :
  Forall (fun br => List.length (creg br) = m) brs ->
  Forall (fun br => List.length (creg br) = m) (step op brs).
Proof.
  intros H. rewrite Forall_forall in *.
  destruct op; simpl; intros br I;
    try (apply in_map_iff in I as [br0 [<- I]]; simpl; now apply H).
  apply in_flat_map in I as [br0 [I0 I]]. simpl in I.
  destruct I as [<-|[<-|[]]]; simpl; rewrite set_nth_length; now apply H.
Qed.

Lemma branches_creg_length (qc : QuantumCircuit) :
  Forall (fun br => List.length (creg br) = num_clbits qc) (branches qc).
Proof.
  unfold branches.
  assert (G : forall ops brs,
             Forall (fun br => List.length (creg br) = num_clbits qc) brs ->
             Forall (fun br => List.length (creg br) = num_clbits qc)
                    (fold_left (fun brs op => step op brs) ops brs)).
  { induction ops as [|op ops IH]; simpl; intros brs H; [exact H|].
    apply IH. now apply step_creg_length. }
  apply G. constructor; [|constructor]. simpl. apply repeat_length.
Qed.

Lemma bitstring_is_syndrome (bits : list bool) :
  List.length bits = 3%nat -> is_syndrome (bitstring bits) = true.
Proof.
  destruct bits as [|a [|b [|c [|d bits]]]]; try discriminate.
  intros _. now destruct a, b, c.
Qed.

Lemma weight_pos_is_syndrome (qc : QuantumCircuit) (s : string) :
  num_clbits qc = 3%nat -> 0 < weight qc s -> is_syndrome s = true.
Proof.
  intros Hm H. apply weight_pos_key in H. unfold outcomes in H.
  rewrite map_map in H. simpl in H.
  apply in_map_iff in H as [br [<- I]].
  apply bitstring_is_syndrome.
  pose proof (branches_creg_length qc) as L. rewrite Forall_forall in L.
  rewrite (L br I). exact Hm.
Qed.



(** With a certain outcome, a run on a noiseless backend is determined. *)
Lemma run_block_certain (backend : QuantumCircuit -> Z -> dict Z)
      (k : string) (q shots : Z) (qc : QuantumCircuit) (s : string) :
  prepare k q = Ok qc -> certain qc s ->
  0 < shots -> sampled_from qc shots (backend qc shots) ->
  exists qc',
    (if negb (k =? "None")%string
     then apply_correction qc s k
     else Ok (qc, None)) = Ok (qc', if negb (k =? "None")%string
                                    then dict_get SYNDROME_TABLE s else None) /\
    run_block backend k q shots =
      Ok (mkReport s
            (if negb (k =? "None")%string then dict_get SYNDROME_TABLE s else None)
            match (if negb (k =? "None")%string
                   then dict_get SYNDROME_TABLE s else None) with
            | Some n => "Error corrected on qubit " ++ string_of_Z n
            | None => "No error detected"
            end qc').
Proof.
  intros P C Hs Sm.
  pose proof (sampled_certain qc s shots _ C Hs Sm) as B.
  rewrite (run_block_single backend k q shots qc s shots P B).
  destruct (negb (k =? "None")%string).
  - destruct (apply_correction_ok qc s k (proj1 (prepare_shape k q qc P)))
      as [qc' E].
    exists qc'. rewrite E. split; reflexivity.
  - exists qc. split; reflexivity.
Qed.

Ltac certain_by_evaluation :=
  apply certainb_sound; vm_compute; reflexivity.

(** Settles one pair of error type and qubit: the circuit is evaluated, its
    only possible syndrome is read off and compared with the table. *)
Ltac settle_injection k q :=
  let qc := eval vm_compute in
      (match prepare k q with Ok c => c | Raise _ => Circuit.new 0 0 end) in
  let s := eval vm_compute in (hd "" (support qc)) in
  assert (P : prepare k q = Ok qc) by (vm_compute; reflexivity);
  assert (C : certain qc s) by certain_by_evaluation;
  exists qc, s;
  split; [exact P|];
  split; [exact C|];
  split; [vm_compute; discriminate|];
  intros backend shots Hs Sm;
  destruct (run_block_certain backend k q shots qc s P C Hs Sm) as [qc' [_ R]];
  eexists; split; [exact R|]; split; reflexivity.

(** C1, evaluated on the code. For every error type "X", "Z", "Y" and every
    qubit 0..6, the prepared circuit has one syndrome that is read with
    probability 1, a noiseless run selects it and takes its correction from
    the table, and the table does not map this syndrome to the qubit on which
    the error was injected. *)
Theorem C1_syndrome_misses_injected_qubit (k : string) (q : Z) :
  In k ["X"; "Z"; "Y"] -> 0 <= q <= 6 ->
  exists qc s,
    prepare k q = Ok qc /\
    certain qc s /\
    dict_get SYNDROME_TABLE s <> Some q /\
    forall backend shots,
      0 < shots -> sampled_from qc shots (backend qc shots) ->
      exists rep,
        run_block backend k q shots = Ok rep /\
        syndrome rep = s /\
        corrected rep = dict_get SYNDROME_TABLE s.
Proof.
  intros Hk Hq.
  assert (Q : q = 0 \/ q = 1 \/ q = 2 \/ q = 3 \/ q = 4 \/ q = 5 \/ q = 6) by lia.
  simpl in Hk.
  destruct Hk as [<-|[<-|[<-|[]]]];
    destruct Q as [->|[->|[->|[->|[->|[->| ->]]]]]].
  - settle_injection "X" 0.
  - settle_injection "X" 1.
  - settle_injection "X" 2.
  - settle_injection "X" 3.
  - settle_injection "X" 4.
  - settle_injection "X" 5.
  - settle_injection "X" 6.
  - settle_injection "Z" 0.
  - settle_injection "Z" 1.
  - settle_injection "Z" 2.
  - settle_injection "Z" 3.
  - settle_injection "Z" 4.
  - settle_injection "Z" 5.
  - settle_injection "Z" 6.
  - settle_injection "Y" 0.
  - settle_injection "Y" 1.
  - settle_injection "Y" 2.
  - settle_injection "Y" 3.
  - settle_injection "Y" 4.
  - settle_injection "Y" 5.
  - settle_injection "Y" 6.
Qed.

Lemma C1_syndrome_misses_injected_qubit_witness :
  exists qc s,
    prepare "X" 3 = Ok qc /\
    certain qc s /\
    dict_get SYNDROME_TABLE s <> Some 3 /\
    forall backend shots,
      0 < shots -> sampled_from qc shots (backend qc shots) ->
      exists rep,
        run_block backend "X" 3 shots = Ok rep /\
        syndrome rep = s /\
        corrected rep = dict_get SYNDROME_TABLE s.
Proof.
  apply (C1_syndrome_misses_injected_qubit "X" 3); [simpl; auto | lia].
Defined.

Lemma always_sampled (qc : QuantumCircuit) (s : string) (shots : Z) :
  0 < shots -> 0 < weight qc s -> sampled_from qc shots (always s qc shots).
Proof.
  intros Hs Hw. unfold always. split; [|split].
  - simpl. constructor; [simpl; tauto | constructor].
  - intros k c [[= <- <-]|[]]. now split.
  - simpl. lia.
Qed.

(** C2, evaluated on the code. Encode, bit-flip on qubit 3, syndrome
    extraction, 1024 noiseless shots: the syndrome "111" is certain and is
    the one selected, but the table maps "111" to qubit 6, so the run reports
    qubit 6 and appends the [x] gate on qubit 6, not on qubit 3. *)
Theorem C2_bit_flip_on_qubit_3 (backend : QuantumCircuit -> Z -> dict Z) :
  sampled_from (measured_circuit [x 3]) 1024
               (backend (measured_circuit [x 3]) 1024) ->
  prepare "X" 3 = Ok (measured_circuit [x 3]) /\
  certain (measured_circuit [x 3]) "111" /\
  py_max (backend (measured_circuit [x 3]) 1024) = Ok "111" /\
  dict_get SYNDROME_TABLE "111" = Some 6 /\
  run_block backend "X" 3 1024 =
    Ok (mkReport "111" (Some 6) "Error corrected on qubit 6"
                 (append (measured_circuit [x 3]) (x 6))).
Proof.
  intros Sm.
  assert (P : prepare "X" 3 = Ok (measured_circuit [x 3])) by reflexivity.
  assert (C : certain (measured_circuit [x 3]) "111") by certain_by_evaluation.
  pose proof (sampled_certain _ _ 1024 _ C eq_refl Sm) as B.
  split; [exact P|]. split; [exact C|].
  split; [now rewrite B|]. split; [reflexivity|].
  rewrite (run_block_single backend "X" 3 1024 _ "111" 1024 P B).
  reflexivity.
Qed.

Lemma C2_bit_flip_on_qubit_3_witness :
  run_block (always "111") "X" 3 1024 =
    Ok (mkReport "111" (Some 6) "Error corrected on qubit 6"
                 (append (measured_circuit [x 3]) (x 6))).
Proof.
  refine (proj2 (proj2 (proj2 (proj2
           (C2_bit_flip_on_qubit_3 (always "111") _))))).
  apply always_sampled; [lia | vm_compute; reflexivity].
Defined.

(** C4. With error type "None" nothing is injected; a noiseless run of the
    encoded circuit followed by the syndrome extraction reads "000" with
    probability 1, "000" is not a key of the table (decoding it gives [None]
    and leaves the circuit as it was), and the run ends with no corrected
    qubit, the message "No error detected" and the circuit unchanged. *)
Theorem C4_no_error_run (backend : QuantumCircuit -> Z -> dict Z) (q shots : Z) :
  0 < shots ->
  sampled_from (measured_circuit []) shots (backend (measured_circuit []) shots) ->
  prepare "None" q = Ok (measured_circuit []) /\
  certain (measured_circuit []) "000" /\
  py_max (backend (measured_circuit []) shots) = Ok "000" /\
  dict_get SYNDROME_TABLE "000" = None /\
  (forall k, apply_correction (measured_circuit []) "000" k
             = Ok (measured_circuit [], None)) /\
  run_block backend "None" q shots =
    Ok (mkReport "000" None "No error detected" (measured_circuit [])).
Proof.
  intros Hs Sm.
  assert (P : prepare "None" q = Ok (measured_circuit [])) by reflexivity.
  assert (C : certain (measured_circuit []) "000") by certain_by_evaluation.
  pose proof (sampled_certain _ _ _ _ C Hs Sm) as B.
  split; [exact P|]. split; [exact C|].
  split; [now rewrite B|]. split; [reflexivity|]. split; [reflexivity|].
  rewrite (run_block_single backend "None" q shots _ "000" shots P B).
  reflexivity.
Qed.

Lemma C4_no_error_run_witness :
  run_block (always "000") "None" 0 1024 =
    Ok (mkReport "000" None "No error detected" (measured_circuit [])).
Proof.
  refine (proj2 (proj2 (proj2 (proj2 (proj2
           (C4_no_error_run (always "000") 0 1024 _ _)))))).
  - lia.
  - apply always_sampled; [lia | vm_compute; reflexivity].
Defined.






(** ** Selection on small dicts *)

Example py_max_first_of_ties :
  py_max [("000", 3); ("111", 5); ("011", 5)] = Ok "111".
Proof. reflexivity. Qed.

Example py_max_empty : py_max [] = Raise ValueError.
Proof. reflexivity. Qed.

Example phase_flip_is_invisible :
  support (measured_circuit [z 3]) = ["000"].
Proof. vm_compute. reflexivity. Qed.

(** * Further properties of the code *)

(** ** Selecting the syndrome: [max(counts, key=counts.get)] *)

Lemma max_from_split (key : string -> Z) (rest : list string) :
  forall (best : string) (pre0 mid : list string),
    (forall k, In k pre0 -> key k < key best) ->
    (forall k, In k mid -> key k <= key best) ->
    exists pre post,
      (pre0 ++ best :: mid ++ rest)%list
        = (pre ++ max_from key best rest :: post)%list /\
      (forall k, In k pre -> key k < key (max_from key best rest)) /\
      (forall k, In k post -> key k <= key (max_from key best rest)).
Proof.
  induction rest as [|k rest IH]; intros best pre0 mid Hpre Hmid; simpl.
  - exists pre0, mid. rewrite app_nil_r. auto.
  - destruct (key best <? key k) eqn:E.
    + apply Z.ltb_lt in E.
      destruct (IH k (pre0 ++ best :: mid)%list []) as (pre & post & Eq & A & B).
      * intros k' I. apply in_app_or in I as [I|[<-|I]].
        -- specialize (Hpre k' I). lia.
        -- exact E.
        -- specialize (Hmid k' I). lia.
      * intros k' [].
      * exists pre, post. split; [|auto].
        rewrite <- Eq. simpl. rewrite <- app_assoc. reflexivity.
    + apply Z.ltb_ge in E.
      destruct (IH best pre0 (mid ++ [k])%list) as (pre & post & Eq & A & B).
      * exact Hpre.
      * intros k' I. apply in_app_or in I as [I|[<-|[]]]; auto.
      * exists pre, post. split; [|auto].
        rewrite <- Eq. rewrite <- app_assoc. reflexivity.
Qed.

Lemma py_max_ok_split (counts : dict Z) (s : string) :
  py_max counts = Ok s ->
  exists pre post,
    keys counts = (pre ++ s :: post)%list /\
    (forall k, In k pre -> count_of counts k < count_of counts s) /\
    (forall k, In k post -> count_of counts k <= count_of counts s).
Proof.
  unfold py_max. destruct (keys counts) as [|k ks] eqn:K; [discriminate|].
  intros [= <-].
  destruct (max_from_split (count_of counts) ks k [] [])
    as (pre & post & Eq & A & B); try (intros ? []).
  exists pre, post. simpl in Eq. auto.
Qed.

Lemma py_max_in_keys (counts : dict Z) (s : string) :
  py_max counts = Ok s -> In s (keys counts).
Proof.
  intros H. apply py_max_ok_split in H as (pre & post & Eq & _).
  rewrite Eq. apply in_or_app. right. now left.
Qed.

Lemma py_max_raise (counts : dict Z) (e : exn) :
  py_max counts = Raise e -> counts = [] /\ e = ValueError.
Proof.
  unfold py_max. destruct counts as [|[k c] rest]; simpl.
  - now intros [= <-].
  - discriminate.
Qed.

(** X1. [max(counts, key=counts.get)] raises [ValueError] on the empty dict
    and nothing else; on any other dict it returns a key whose count is at
    least every other count, and strictly above the count of every key that
    comes before it in the dict's order: ties go to the first key. *)
Theorem py_max_first_maximum (counts : dict Z) :
  (counts = [] -> py_max counts = Raise ValueError) /\
  (counts <> [] ->
   exists s pre post,
     py_max counts = Ok s /\
     keys counts = (pre ++ s :: post)%list /\
     (forall k, In k pre -> count_of counts k < count_of counts s) /\
     (forall k, In k post -> count_of counts k <= count_of counts s)).
Proof.
  split.
  - now intros ->.
  - intros N. destruct (py_max counts) as [s|e] eqn:E.
    + destruct (py_max_ok_split counts s E) as (pre & post & H).
      exists s, pre, post. auto.
    + apply py_max_raise in E as [-> _]. contradiction.
Qed.

Lemma py_max_first_maximum_witness :
  exists s pre post,
    py_max [("000", 3); ("111", 5); ("011", 5)] = Ok s /\
    keys [("000", 3); ("111", 5); ("011", 5)] = (pre ++ s :: post)%list /\
    (forall k, In k pre ->
       count_of [("000", 3); ("111", 5); ("011", 5)] k
       < count_of [("000", 3); ("111", 5); ("011", 5)] s) /\
    (forall k, In k post ->
       count_of [("000", 3); ("111", 5); ("011", 5)] k
       <= count_of [("000", 3); ("111", 5); ("011", 5)] s).
Proof.
  apply (proj2 (py_max_first_maximum [("000", 3); ("111", 5); ("011", 5)])).
  discriminate.
Defined.

(** ** The decode table as arithmetic *)

(** X2. [SYNDROME_TABLE] maps a key to a qubit exactly when the key is a
    three-character string of '0'/'1' and the qubit is the number the key
    denotes in binary, minus one (so "000" and every malformed string have no
    entry). *)
Theorem table_is_binary_minus_one (s : string) (q : Z) :
  dict_get SYNDROME_TABLE s = Some q <->
  is_syndrome s = true /\ 0 <= q /\ binary_value s = q + 1.
Proof.
  split.
  - intros H. apply table_lookup_cases in H. simpl in H.
    repeat (destruct H as [[= <- <-]|H]; [repeat split; discriminate|]).
    contradiction.
  - intros (H & Hq & V). apply is_syndrome_cases in H. simpl in H.
    repeat (destruct H as [<-|H];
            [match type of V with
             | binary_value ?k = _ =>
                 let v := eval vm_compute in (binary_value k) in
                 change (binary_value k) with v in V
             end;
             first [exfalso; lia
                   | replace q with (q + 1 - 1) by lia; rewrite <- V;
                     reflexivity]|]).
    contradiction.
Qed.

(** ** Circuits only grow *)

Lemma extends_refl (qc : QuantumCircuit) : extends qc qc.
Proof.
  repeat split. exists []. now rewrite app_nil_r.
Qed.

Lemma extends_trans (a b c : QuantumCircuit) :
  extends a b -> extends b c -> extends a c.
Proof.
  intros (Q1 & C1 & l1 & D1) (Q2 & C2 & l2 & D2).
  repeat split; try congruence.
  exists (l1 ++ l2)%list. rewrite D2, D1. now rewrite app_assoc.
Qed.

Lemma append_extends (qc : QuantumCircuit) (op : instr) :
  extends qc (append qc op).
Proof.
  repeat split. now exists [op].
Qed.

Lemma gate1_extends (g : nat -> instr) (qc qc' : QuantumCircuit) (q : Z) :
  gate1 g qc q = Ok qc' -> extends qc qc'.
Proof.
  unfold gate1. destruct (resolve (num_qubits qc) q); simpl; [|discriminate].
  intros [= <-]. apply append_extends.
Qed.

Lemma qc_cx_extends (qc qc' : QuantumCircuit) (c t : Z) :
  qc_cx qc c t = Ok qc' -> extends qc qc'.
Proof.
  unfold qc_cx.
  destruct (resolve (num_qubits qc) c); simpl; [|discriminate].
  destruct (resolve (num_qubits qc) t); simpl; [|discriminate].
  destruct (Nat.eqb _ _); [discriminate|].
  intros [= <-]. apply append_extends.
Qed.

Lemma qc_measure_extends (qc qc' : QuantumCircuit) (q c : Z) :
  qc_measure qc q c = Ok qc' -> extends qc qc'.
Proof.
  unfold qc_measure.
  destruct (resolve (num_qubits qc) q); simpl; [|discriminate].
  destruct (resolve (num_clbits qc) c); simpl; [|discriminate].
  intros [= <-]. apply append_extends.
Qed.

Lemma inject_error_extends (qc qc' : QuantumCircuit) (q : Z) (k : string) :
  inject_error qc q k = Ok qc' -> extends qc qc'.
Proof.
  unfold inject_error, qc_x, qc_y, qc_z.
  repeat (match goal with |- context [if ?b then _ else _] => destruct b end);
    try apply gate1_extends.
  intros [= <-]. apply extends_refl.
Qed.

Lemma syndrome_measurement_extends (qc qc' : QuantumCircuit) :
  syndrome_measurement qc = Ok qc' -> extends qc qc'.
Proof.
  unfold syndrome_measurement.
  repeat (match goal with
          | |- bind ?r _ = _ -> _ =>
              let E := fresh "E" in
              destruct r eqn:E; simpl; [|discriminate];
              first [apply qc_cx_extends in E | apply qc_measure_extends in E]
          end).
  intros [= <-].
  repeat (eapply extends_trans; [eassumption|]).
  apply extends_refl.
Qed.

Lemma apply_correction_extends (qc qc' : QuantumCircuit) (s k : string)
      (r : option Z) :
  apply_correction qc s k = Ok (qc', r) -> extends qc qc'.
Proof.
  unfold apply_correction, qc_x, qc_y, qc_z.
  destruct (dict_get SYNDROME_TABLE s) as [q|];
    [|intros [= <- _]; apply extends_refl].
  repeat (match goal with |- context [if ?b then _ else _] => destruct b end).
  1-3: destruct (gate1 _ qc q) eqn:E; simpl; [|discriminate];
       intros [= <- _]; now apply gate1_extends in E.
  simpl. intros [= <- _]. apply extends_refl.
Qed.

(** X3. [inject_error], [syndrome_measurement] and [apply_correction] only
    ever add instructions at the end of the circuit they are given: when they
    return, the registers have the same sizes and the instructions that were
    there are still there, in the same order, before the added ones. *)
Theorem circuit_functions_append_only (qc qc' : QuantumCircuit) :
  (exists q k, inject_error qc q k = Ok qc') \/
  syndrome_measurement qc = Ok qc' \/
  (exists s k r, apply_correction qc s k = Ok (qc', r)) ->
  num_qubits qc' = num_qubits qc /\
  num_clbits qc' = num_clbits qc /\
  exists added, data qc' = (data qc ++ added)%list.
Proof.
  intros [(q & k & H)|[H|(s & k & r & H)]].
  - exact (inject_error_extends _ _ _ _ H).
  - exact (syndrome_measurement_extends _ _ H).
  - exact (apply_correction_extends _ _ _ _ _ H).
Qed.

Lemma circuit_functions_append_only_witness :
  num_qubits (mkCircuit 10 3 (encoding_ops ++ extraction_ops)) = 10%nat /\
  num_clbits (mkCircuit 10 3 (encoding_ops ++ extraction_ops)) = 3%nat /\
  exists added,
    data (mkCircuit 10 3 (encoding_ops ++ extraction_ops))
    = (encoding_ops ++ added)%list.
Proof.
  apply (circuit_functions_append_only (mkCircuit 10 3 encoding_ops)).
  right. left. reflexivity.
Defined.

(** ** Register bounds of the syndrome extraction *)

Lemma qc_cx_ok (n m : nat) (ops : list instr) (c t : Z) :
  0 <= c < Z.of_nat n -> 0 <= t < Z.of_nat n -> c <> t ->
  qc_cx (mkCircuit n m ops) c t
  = Ok (mkCircuit n m (ops ++ [cx (Z.to_nat c) (Z.to_nat t)])).
Proof.
  intros Hc Ht D. unfold qc_cx. simpl.
  rewrite !resolve_in_range by assumption. simpl.
  replace (Z.to_nat c =? Z.to_nat t)%nat with false; [reflexivity|].
  symmetry. apply Nat.eqb_neq. lia.
Qed.

Lemma qc_measure_ok (n m : nat) (ops : list instr) (q c : Z) :
  0 <= q < Z.of_nat n -> 0 <= c < Z.of_nat m ->
  qc_measure (mkCircuit n m ops) q c
  = Ok (mkCircuit n m (ops ++ [measure (Z.to_nat q) (Z.to_nat c)])).
Proof.
  intros Hq Hc. unfold qc_measure. simpl.
  now rewrite !resolve_in_range by assumption.
Qed.

Lemma qc_measure_few_clbits (n m : nat) (ops : list instr) (q c : Z) :
  0 <= q < Z.of_nat n -> Z.of_nat m <= c ->
  qc_measure (mkCircuit n m ops) q c = Raise CircuitError.
Proof.
  intros Hq Hc. unfold qc_measure. simpl.
  rewrite resolve_in_range by assumption. simpl.
  now rewrite resolve_beyond by assumption.
Qed.

Lemma syndrome_measurement_large (n m : nat) (ops : list instr) :
  (10 <= n)%nat -> (3 <= m)%nat ->
  syndrome_measurement (mkCircuit n m ops)
  = Ok (mkCircuit n m (ops ++ extraction_ops)).
Proof.
  intros Hn Hm. unfold syndrome_measurement.
  repeat (rewrite qc_cx_ok by lia; cbn [bind]).
  repeat (rewrite qc_measure_ok by lia; cbn [bind]).
  repeat rewrite <- app_assoc. reflexivity.
Qed.

Lemma syndrome_measurement_few_qubits (n m : nat) (ops : list instr) :
  (n < 10)%nat -> syndrome_measurement (mkCircuit n m ops) = Raise CircuitError.
Proof.
  intros Hn.
  do 10 (destruct n as [|n]; [reflexivity|]). lia.
Qed.

Lemma syndrome_measurement_few_clbits (n m : nat) (ops : list instr) :
  (10 <= n)%nat -> (m < 3)%nat ->
  syndrome_measurement (mkCircuit n m ops) = Raise CircuitError.
Proof.
  intros Hn Hm. unfold syndrome_measurement.
  repeat (rewrite qc_cx_ok by lia; cbn [bind]).
  destruct m as [|[|[|m]]]; [| | |lia].
  - now rewrite qc_measure_few_clbits by lia.
  - rewrite qc_measure_ok by lia. cbn [bind].
    now rewrite qc_measure_few_clbits by lia.
  - do 2 (rewrite qc_measure_ok by lia; cbn [bind]).
    now rewrite qc_measure_few_clbits by lia.
Qed.

(** X4. [syndrome_measurement] returns exactly when the circuit has at least
    10 qubits and at least 3 classical bits, and then it has appended its
    nine [cx] and three [measure] instructions; on any smaller register the
    circuit library's [CircuitError] is raised. *)
Theorem syndrome_measurement_register_bounds (qc : QuantumCircuit) :
  ((10 <= num_qubits qc)%nat /\ (3 <= num_clbits qc)%nat ->
   syndrome_measurement qc
   = Ok (mkCircuit (num_qubits qc) (num_clbits qc) (data qc ++ extraction_ops))) /\
  ((num_qubits qc < 10)%nat \/ (num_clbits qc < 3)%nat ->
   syndrome_measurement qc = Raise CircuitError).
Proof.
  destruct qc as [n m ops]. simpl. split.
  - intros [Hn Hm]. now apply syndrome_measurement_large.
  - intros H. destruct (Nat.lt_ge_cases n 10) as [L|G].
    + now apply syndrome_measurement_few_qubits.
    + destruct H as [H|H]; [lia|]. now apply syndrome_measurement_few_clbits.
Qed.

Lemma syndrome_measurement_register_bounds_witness :
  syndrome_measurement (mkCircuit 12 4 [h 11])
    = Ok (mkCircuit 12 4 ([h 11] ++ extraction_ops)) /\
  syndrome_measurement (mkCircuit 9 3 []) = Raise CircuitError /\
  syndrome_measurement (mkCircuit 10 2 []) = Raise CircuitError.
Proof.
  split; [|split].
  - apply (proj1 (syndrome_measurement_register_bounds (mkCircuit 12 4 [h 11]))).
    simpl. lia.
  - apply (proj2 (syndrome_measurement_register_bounds (mkCircuit 9 3 []))).
    simpl. lia.
  - apply (proj2 (syndrome_measurement_register_bounds (mkCircuit 10 2 []))).
    simpl. lia.
Defined.

(** ** The execution block on the sidebar's inputs *)

Lemma apply_correction_pauli (qc : QuantumCircuit) (s k : string) :
  num_qubits qc = 10%nat ->
  apply_correction qc s k
  = Ok match pauli k, dict_get SYNDROME_TABLE s with
       | Some g, Some n => (append qc (g (Z.to_nat n)), Some n)
       | None, Some n => (qc, Some n)
       | _, None => (qc, None)
       end.
Proof.
  intros Hn. unfold apply_correction, pauli, qc_x, qc_y, qc_z, gate1.
  destruct (dict_get SYNDROME_TABLE s) as [n|] eqn:E.
  - apply table_lookup_range in E.
    rewrite resolve_in_range by (rewrite Hn; lia). simpl.
    now repeat (match goal with |- context [if ?b then _ else _] => destruct b end).
  - now repeat (match goal with |- context [if ?b then _ else _] => destruct b end).
Qed.

Lemma prepare_sidebar (k : string) (q : Z) :
  In k error_types -> In q error_qubits ->
  prepare k q
  = Ok (measured_circuit match pauli k with
                         | Some g => [g (Z.to_nat q)]
                         | None => []
                         end).
Proof.
  intros Hk Hq. simpl in Hk, Hq.
  destruct Hk as [<-|[<-|[<-|[<-|[]]]]];
    repeat (destruct Hq as [<-|Hq]; [reflexivity|]); contradiction.
Qed.

(** X5. For the values the sidebar offers (error type "None", "X", "Z" or
    "Y", qubit 0..6) and any simulator and shot count, the run never fails in
    the circuit library.  It fails in two cases only: the simulator call
    raises, and that exception reaches the caller as it is, or the simulator
    answers empty counts, and [max] raises [ValueError].  Otherwise it
    completes: with "None" it reports "No error detected" whatever syndrome
    was selected; with "X", "Z" or "Y" it reports and corrects the table's
    qubit for the selected syndrome by appending that same gate after the
    measurements, or reports "No error detected" with the circuit untouched
    when the syndrome is not a key. *)
Theorem run_block_on_sidebar_inputs
        (backend : QuantumCircuit -> Z -> result (dict Z))
        (k : string) (q shots : Z) :
  In k error_types -> In q error_qubits ->
  exists qc,
    prepare k q = Ok qc /\
    (forall e, execute backend k q shots = Raise e ->
               backend qc shots = Raise e \/
               (backend qc shots = Ok [] /\ e = ValueError)) /\
    execute backend k q shots
    = match backend qc shots with
      | Raise e => Raise e
      | Ok counts =>
          match py_max counts with
          | Raise e => Raise ValueError
          | Ok s =>
              match pauli k, dict_get SYNDROME_TABLE s with
              | Some g, Some n =>
                  Ok (mkReport s (Some n)
                               ("Error corrected on qubit " ++ string_of_Z n)
                               (append qc (g (Z.to_nat n))))
              | _, _ => Ok (mkReport s None "No error detected" qc)
              end
          end
      end.
Proof.
  intros Hk Hq.
  pose proof (prepare_sidebar k q Hk Hq) as P.
  eexists. split; [exact P|].
  match type of P with _ = Ok ?c => set (qc := c) in * end.
  assert (R : execute backend k q shots
              = match backend qc shots with
                | Raise e => Raise e
                | Ok counts =>
                    match py_max counts with
                    | Raise e => Raise ValueError
                    | Ok s =>
                        match pauli k, dict_get SYNDROME_TABLE s with
                        | Some g, Some n =>
                            Ok (mkReport s (Some n)
                                  ("Error corrected on qubit " ++ string_of_Z n)
                                  (append qc (g (Z.to_nat n))))
                        | _, _ => Ok (mkReport s None "No error detected" qc)
                        end
                    end
                end).
  { unfold execute. rewrite P. cbn [bind].
    destruct (backend qc shots) as [counts|e]; cbn [bind]; [|reflexivity].
    destruct (py_max counts) as [s|e] eqn:M; cbn [bind].
    - rewrite (apply_correction_pauli qc s k eq_refl).
      destruct (dict_get SYNDROME_TABLE s) as [n|].
      all: simpl in Hk; destruct Hk as [<-|[<-|[<-|[<-|[]]]]]; reflexivity.
    - apply py_max_raise in M as [_ ->]. reflexivity. }
  split; [|exact R].
  intros e. rewrite R.
  destruct (backend qc shots) as [counts|e'].
  - destruct (py_max counts) as [s|e'] eqn:M.
    + destruct (pauli k), (dict_get SYNDROME_TABLE s); discriminate.
    + intros [= <-]. right. apply py_max_raise in M as [-> _]. auto.
  - intros [= <-]. now left.
Qed.

Lemma run_block_on_sidebar_inputs_witness :
  exists qc,
    prepare "Z" 5 = Ok qc /\
    (forall e,
        execute (refusing (replay [("110", 7); ("000", 2)])) "Z" 5 9 = Raise e ->
        refusing (replay [("110", 7); ("000", 2)]) qc 9 = Raise e \/
        (refusing (replay [("110", 7); ("000", 2)]) qc 9 = Ok [] /\
         e = ValueError)) /\
    execute (refusing (replay [("110", 7); ("000", 2)])) "Z" 5 9
    = match refusing (replay [("110", 7); ("000", 2)]) qc 9 with
      | Raise e => Raise e
      | Ok counts =>
          match py_max counts with
          | Raise e => Raise ValueError
          | Ok s =>
              match pauli "Z", dict_get SYNDROME_TABLE s with
              | Some g, Some n =>
                  Ok (mkReport s (Some n)
                               ("Error corrected on qubit " ++ string_of_Z n)
                               (append qc (g (Z.to_nat n))))
              | _, _ => Ok (mkReport s None "No error detected" qc)
              end
          end
      end.
Proof.
  apply (run_block_on_sidebar_inputs
           (refusing (replay [("110", 7); ("000", 2)])) "Z" 5 9);
    simpl; auto 10.
Defined.

(** X6. On a noiseless backend with a positive shot count the run always
    completes, whatever error type and qubit produced the circuit: the
    syndrome it selects is one of the keys the backend returned, a string of
    three characters '0'/'1' that the circuit can really produce. *)
Theorem noiseless_run_selects_possible_syndrome
        (backend : QuantumCircuit -> Z -> dict Z)
        (k : string) (q shots : Z) (qc : QuantumCircuit) :
  prepare k q = Ok qc ->
  0 < shots ->
  sampled_from qc shots (backend qc shots) ->
  exists rep,
    run_block backend k q shots = Ok rep /\
    py_max (backend qc shots) = Ok (syndrome rep) /\
    In (syndrome rep) (keys (backend qc shots)) /\
    is_syndrome (syndrome rep) = true /\
    0 < weight qc (syndrome rep).
Proof.
  intros P Hs Sm.
  destruct (prepare_shape k q qc P) as [Hn Hm].
  destruct (py_max (backend qc shots)) as [s|e] eqn:M.
  - pose proof (py_max_in_keys _ _ M) as I.
    assert (W : 0 < weight qc s).
    { destruct Sm as (_ & Pos & _).
      unfold keys in I. apply in_map_iff in I as [[s' c] [E I]].
      simpl in E. subst s'. now apply (Pos s c). }
    unfold run_block, execute, answering. rewrite P. cbn [bind]. rewrite M. cbn [bind].
    destruct (negb (k =? "None")%string).
    + destruct (apply_correction_ok qc s k Hn) as [qc' E]. rewrite E.
      cbn [bind]. eexists. split; [reflexivity|]. simpl.
      repeat split; auto. now apply (weight_pos_is_syndrome qc).
    + cbn [bind]. eexists. split; [reflexivity|]. simpl.
      repeat split; auto. now apply (weight_pos_is_syndrome qc).
  - exfalso. apply py_max_raise in M as [E _].
    destruct Sm as (_ & _ & S). rewrite E in S. simpl in S. lia.
Qed.

Lemma noiseless_run_selects_possible_syndrome_witness :
  exists rep,
    run_block (always "101") "Y" 1 300 = Ok rep /\
    py_max (always "101" (measured_circuit [y 1]) 300) = Ok (syndrome rep) /\
    In (syndrome rep) (keys (always "101" (measured_circuit [y 1]) 300)) /\
    is_syndrome (syndrome rep) = true /\
    0 < weight (measured_circuit [y 1]) (syndrome rep).
Proof.
  apply (noiseless_run_selects_possible_syndrome
           (always "101") "Y" 1 300 (measured_circuit [y 1]) eq_refl).
  - lia.
  - apply always_sampled; [lia | vm_compute; reflexivity].
Defined.

(** ** What the syndrome extraction sees *)

(** X7. For a bit flip ("X") or a combined flip ("Y") injected on a qubit
    0..6, the syndrome read with probability 1 has a '1' exactly for each
    ancilla whose [cx] controls in [syndrome_measurement] include that qubit
    (ancilla 7 rightmost); as the qubits 4, 5, 6 control no [cx] of the
    extraction, an error on them reads "000" like no error at all. *)
Theorem bit_flip_syndrome_is_parity (q : nat) :
  (q <= 6)%nat ->
  prepare "X" (Z.of_nat q) = Ok (measured_circuit [x q]) /\
  certain (measured_circuit [x q]) (parity_key q) /\
  prepare "Y" (Z.of_nat q) = Ok (measured_circuit [y q]) /\
  certain (measured_circuit [y q]) (parity_key q) /\
  ((4 <= q)%nat -> parity_key q = "000").
Proof.
  intros Hq.
  do 7 (destruct q as [|q];
        [split; [reflexivity|]; split; [certain_by_evaluation|];
         split; [reflexivity|]; split; [certain_by_evaluation|];
         intros H; first [reflexivity | exfalso; lia]|]).
  lia.
Qed.

Lemma bit_flip_syndrome_is_parity_witness :
  certain (measured_circuit [x 1%nat]) "101" /\
  certain (measured_circuit [y 5%nat]) "000".
Proof.
  split.
  - exact (proj1 (proj2 (bit_flip_syndrome_is_parity 1 ltac:(lia)))).
  - exact (proj1 (proj2 (proj2 (proj2 (bit_flip_syndrome_is_parity 5 ltac:(lia)))))).
Defined.

(** X8. A phase flip ("Z") injected on any qubit 0..6 is never noticed: the
    syndrome "000" is read with probability 1, so a noiseless run with a
    positive shot count selects "000", finds no table entry, reports "No
    error detected" and leaves the circuit, with the injected [z] still in
    it, uncorrected. *)
Theorem phase_flip_goes_unnoticed (backend : QuantumCircuit -> Z -> dict Z)
        (q : nat) (shots : Z) :
  (q <= 6)%nat ->
  0 < shots ->
  sampled_from (measured_circuit [z q]) shots
               (backend (measured_circuit [z q]) shots) ->
  certain (measured_circuit [z q]) "000" /\
  run_block backend "Z" (Z.of_nat q) shots
  = Ok (mkReport "000" None "No error detected" (measured_circuit [z q])).
Proof.
  intros Hq Hs Sm.
  assert (P : prepare "Z" (Z.of_nat q) = Ok (measured_circuit [z q]))
    by (do 7 (destruct q as [|q]; [reflexivity|]); lia).
  assert (C : certain (measured_circuit [z q]) "000")
    by (do 7 (destruct q as [|q]; [certain_by_evaluation|]); lia).
  split; [exact C|].
  pose proof (sampled_certain _ _ _ _ C Hs Sm) as B.
  now rewrite (run_block_single backend "Z" _ shots _ "000" shots P B).
Qed.

Lemma phase_flip_goes_unnoticed_witness :
  run_block (always "000") "Z" 2 512
  = Ok (mkReport "000" None "No error detected" (measured_circuit [z 2%nat])).
Proof.
  refine (proj2 (phase_flip_goes_unnoticed (always "000") 2 512 _ _ _)).
  - lia.
  - lia.
  - apply always_sampled; [lia | vm_compute; reflexivity].
Defined.

(** ** The encoded state *)

Lemma basis_complete (n : nat) (i : N) :
  (i < N.of_nat (2 ^ n))%N -> In i (basis n).
Proof.
  intros H. unfold basis. apply in_map_iff.
  exists (N.to_nat i). split; [apply N2Nat.id|].
  apply in_seq. lia.
Qed.

Lemma geqb_eq (a b : gauss) : geqb a b = true -> a = b.
Proof.
  destruct a as [ar ai], b as [br bi]. unfold geqb. simpl.
  intros H. apply andb_true_iff in H as [H1 H2].
  apply Z.eqb_eq in H1, H2. now subst.
Qed.

(** X9. The circuit built by [steane_encode] has no measurement, so its
    ideal simulation is a single state, and that state is the equal
    superposition of just two of the 1024 basis states: all ten qubits 0,
    and qubits 0, 1, 2, 4, 5 at 1 with qubits 3, 6 and the ancillas 7, 8, 9
    at 0 (index 55). *)
Theorem encoded_state_has_two_terms :
  exists psi0,
    map psi (branches (mkCircuit 10 3 encoding_ops)) = [psi0] /\
    forall i, (i < 1024)%N ->
      psi0 i = if ((i =? 0) || (i =? 55))%N then gone else gzero.
Proof.
  eexists. split; [reflexivity|].
  intros i Hi. apply geqb_eq.
  assert (A : forallb
                (fun i => geqb
                   (apply_cx 3 6 (apply_cx 2 5 (apply_cx 1 4 (apply_cx 2 3
                     (apply_cx 1 3 (apply_cx 0 2 (apply_cx 0 1
                       (apply_h 0 ket0))))))) i)
                   (if ((i =? 0) || (i =? 55))%N then gone else gzero))
                (basis 10) = true) by (vm_compute; reflexivity).
  rewrite forallb_forall in A. apply A. apply basis_complete.
  exact Hi.
Qed.

Lemma encoded_state_has_two_terms_witness :
  exists psi0,
    map psi (branches (mkCircuit 10 3 encoding_ops)) = [psi0] /\
    psi0 55%N = gone /\ psi0 7%N = gzero.
Proof.
  destruct encoded_state_has_two_terms as [psi0 [E A]].
  exists psi0. split; [exact E|]. split.
  - exact (A 55%N eq_refl).
  - exact (A 7%N eq_refl).
Defined.
